(** * disclaim.cpp: re-launching a process with disclaimed responsibilities

    A shallow embedding of [src/disclaim.cpp] and the properties of its one
    entry point, [disclaim()].

    The function is a straight line of calls into the C library and the
    kernel.  Each of those calls is modelled as a step of a small monad over
    the state of the process: the local [attr] object, the text written to
    standard error, and the log of library calls made so far.  What the
    operating system answers to each call is a parameter of the model ([OS]);
    the constants and types of the system headers are another ([Platform]). *)

From Stdlib Require Import ZArith String Ascii List Bool Lia Sorted.
Import ListNotations.
Open Scope string_scope.
Open Scope Z_scope.

(** ** C integer conversions *)

(** Conversion of an [int] to [short] (16 bits, two's complement), as in
    [short flags = ...] and [flags |= ...]. *)
Definition to_short (z : Z) : Z := (z + 32768) mod 65536 - 32768.

Arguments to_short : simpl never.

(** ** Formatted output *)

(** [fprintf] restricted to what the source uses: a format whose only
    directive is [%s], each one consuming one string argument. *)
Fixpoint fprintf_format (fmt : string) (args : list string) : string :=
  match fmt with
  | EmptyString => EmptyString
  | String c rest =>
      if Ascii.eqb c "%" then
        match rest with
        | String d rest' =>
            if Ascii.eqb d "s" then
              match args with
              | a :: args' => (a ++ fprintf_format rest' args')%string
              | [] => fprintf_format rest' []
              end
            else String c (String d (fprintf_format rest' args))
        | EmptyString => String c EmptyString
        end
      else String c (fprintf_format rest args)
  end.

(** Number of line breaks in a text. *)
Fixpoint line_breaks (s : string) : nat :=
  match s with
  | EmptyString => 0%nat
  | String c rest => ((if Ascii.eqb c "010" then 1 else 0) + line_breaks rest)%nat
  end.

(** ** The platform: what <signal.h>, <spawn.h> and <string.h> declare *)

(** The headers are not part of the repository; the program only names
    these types, constants and functions, so they are parameters. *)
Class Platform := {
  sigset_t : Type;
  (** the set stored by [sigemptyset(&s)] and by [sigfillset(&s)] *)
  sigemptyset : sigset_t;
  sigfillset : sigset_t;
  sigismember : sigset_t -> Z -> bool;
  (** signal numbers are [1 .. NSIG-1] *)
  NSIG : Z;
  posix_spawn_file_actions_t : Type;
  POSIX_SPAWN_SETEXEC : Z;
  POSIX_SPAWN_SETSIGMASK : Z;
  POSIX_SPAWN_SETSIGDEF : Z;
  strerror : Z -> string
}.

(** What POSIX and the header promise about them. *)
Class PlatformLaws (P : Platform) : Prop := {
  sigemptyset_spec : forall signo, sigismember sigemptyset signo = false;
  sigfillset_spec :
    forall signo, 0 < signo < NSIG -> sigismember sigfillset signo = true;
  SETEXEC_range : 0 < POSIX_SPAWN_SETEXEC < 32768;
  SETSIGMASK_range : 0 <= POSIX_SPAWN_SETSIGMASK < 32768;
  SETSIGDEF_range : 0 <= POSIX_SPAWN_SETSIGDEF < 32768
}.

Section Model.
Context {P : Platform}.

(** ** The spawn-attributes object *)

(** The attributes the program touches.  A signal set that no call has
    installed is [None]. *)
Record spawnattr := {
  psa_flags : Z;
  psa_sigmask : option sigset_t;
  psa_sigdefault : option sigset_t;
  psa_disclaim : option Z
}.

(** The object right after a successful [posix_spawnattr_init]. *)
Definition spawnattr_default : spawnattr :=
  {| psa_flags := 0; psa_sigmask := None; psa_sigdefault := None;
     psa_disclaim := None |}.

(** ** Library calls, as they are logged *)

Inductive call :=
| Call_attr_init
| Call_setsigmask (set : sigset_t)
| Call_setsigdefault (set : sigset_t)
| Call_setflags (flags : Z)
| Call_setdisclaim (disclaim : Z)
| Call_spawnp (path : option string)
              (file_actions : option posix_spawn_file_actions_t)
              (attrp : option spawnattr)
              (argv envp : list string)
| Call_attr_destroy (attrp : option spawnattr)
| Call_fprintf_stderr (text : string)
| Call_exit (status : Z).

(** ** The operating system *)

(** The answers of the operating system in one run.  Every library call of
    [disclaim] happens at most once and with arguments fixed by the program,
    so one return code per call describes any behaviour of the system. *)
Record OS := {
  ret_posix_spawnattr_init : Z;
  ret_posix_spawnattr_setsigmask : Z;
  ret_posix_spawnattr_setsigdefault : Z;
  ret_posix_spawnattr_setflags : Z;
  (** the availability check of macOS 10.14, [__builtin_available] *)
  builtin_available_macOS_10_14 : bool;
  (** the weakly imported symbol: [None] when it is null, else the code its
      call returns *)
  sym_responsibility_spawnattrs_setdisclaim : option Z;
  ret_posix_spawnp : Z;
  (** [*_NSGetArgv()] and [environ] *)
  NSGetArgv : list string;
  environ : list string
}.

(** ** The process *)

(** The image a successful exec-style spawn starts. *)
Record image := {
  img_path : option string;
  img_attr : spawnattr;
  img_argv : list string;
  img_envp : list string
}.

(** State of the running process: the local [attr] ([None] while it holds no
    initialised object), standard error, and the calls made. *)
Record process := {
  attr : option spawnattr;
  stderr : string;
  calls : list call
}.

(** The state in which [disclaim] is entered. *)
Definition process_start : process :=
  {| attr := None; stderr := ""; calls := [] |}.

(** How a computation ends: it returns a value to what follows, the process
    has exited, or the process image has been replaced. *)
Inductive outcome (A : Type) :=
| Returns (a : A)
| Exited (status : Z)
| Replaced (img : image).

Arguments Returns {A} a.
Arguments Exited {A} status.
Arguments Replaced {A} img.

Definition M (A : Type) : Type := process -> outcome A * process.

Definition ret {A} (a : A) : M A := fun p => (Returns a, p).

Definition bind {A B} (m : M A) (k : A -> M B) : M B :=
  fun p =>
    match m p with
    | (Returns a, p') => k a p'
    | (Exited status, p') => (Exited status, p')
    | (Replaced img, p') => (Replaced img, p')
    end.

End Model.

Arguments Returns {P A} a.
Arguments Exited {P A} status.
Arguments Replaced {P A} img.

Declare Scope proc_scope.
Delimit Scope proc_scope with proc.
Notation "x <- m ;; k" := (bind m (fun x => k))
  (at level 61, m at next level, right associativity) : proc_scope.
Notation "m ;; k" := (bind m (fun _ => k))
  (at level 61, right associativity) : proc_scope.
Open Scope proc_scope.

Section Program.
Context {P : Platform}.
Variable os : OS.

(** ** Primitive steps *)

(** Record a library call. *)
Definition log (c : call) : M unit :=
  fun p => (Returns tt,
            {| attr := attr p; stderr := stderr p; calls := calls p ++ [c] |}).

(** Assign the local [attr]. *)
Definition set_attr (a : option spawnattr) : M unit :=
  fun p => (Returns tt, {| attr := a; stderr := stderr p; calls := calls p |}).

Definition get_attr : M (option spawnattr) :=
  fun p => (Returns (attr p), p).

(** An attribute setter of the library: it reports [code] and, when that is
    0, has applied [update] to the object. *)
Definition attr_setter (code : Z) (update : spawnattr -> spawnattr) : M Z :=
  a <- get_attr ;;
  (if code =? 0 then set_attr (option_map update a) else ret tt) ;;
  ret code.

(** ** <spawn.h> *)

Definition posix_spawnattr_init : M Z :=
  log Call_attr_init ;;
  (if ret_posix_spawnattr_init os =? 0
   then set_attr (Some spawnattr_default) else ret tt) ;;
  ret (ret_posix_spawnattr_init os).

Definition posix_spawnattr_setsigmask (sigmask : sigset_t) : M Z :=
  log (Call_setsigmask sigmask) ;;
  attr_setter (ret_posix_spawnattr_setsigmask os)
    (fun a => {| psa_flags := psa_flags a; psa_sigmask := Some sigmask;
                 psa_sigdefault := psa_sigdefault a;
                 psa_disclaim := psa_disclaim a |}).

Definition posix_spawnattr_setsigdefault (sigdefault : sigset_t) : M Z :=
  log (Call_setsigdefault sigdefault) ;;
  attr_setter (ret_posix_spawnattr_setsigdefault os)
    (fun a => {| psa_flags := psa_flags a; psa_sigmask := psa_sigmask a;
                 psa_sigdefault := Some sigdefault;
                 psa_disclaim := psa_disclaim a |}).

Definition posix_spawnattr_setflags (flags : Z) : M Z :=
  log (Call_setflags flags) ;;
  attr_setter (ret_posix_spawnattr_setflags os)
    (fun a => {| psa_flags := flags; psa_sigmask := psa_sigmask a;
                 psa_sigdefault := psa_sigdefault a;
                 psa_disclaim := psa_disclaim a |}).

(** The return value of [posix_spawnattr_destroy] is not looked at. *)
Definition posix_spawnattr_destroy : M unit :=
  a <- get_attr ;;
  log (Call_attr_destroy a) ;;
  set_attr None.

(** The weakly imported extension: a function only when the symbol is
    bound. *)
Definition responsibility_spawnattrs_setdisclaim : option (Z -> M Z) :=
  match sym_responsibility_spawnattrs_setdisclaim os with
  | None => None
  | Some code =>
      Some (fun disclaim =>
              log (Call_setdisclaim disclaim) ;;
              attr_setter code
                (fun a => {| psa_flags := psa_flags a;
                             psa_sigmask := psa_sigmask a;
                             psa_sigdefault := psa_sigdefault a;
                             psa_disclaim := Some disclaim |}))
  end.

(** Whether [flag] is among the flags of the object, the way the kernel
    tests it ([psa_flags & flag]). *)
Definition has_flag (a : spawnattr) (flag : Z) : bool :=
  negb (Z.land (psa_flags a) flag =? 0).

(** [posix_spawnp].  A non-zero code is returned to the caller.  On success
    the call returns 0 after starting a child, unless the attributes carry
    POSIX_SPAWN_SETEXEC: then the image of the calling process is replaced
    and the call does not return (the exec-in-place mode of section 4.1,
    step 7 of the specification).  The child's pid is written to [&pid] in
    the first case only; the program never reads it. *)
Definition posix_spawnp (path : option string)
    (file_actions : option posix_spawn_file_actions_t)
    (argv envp : list string) : M Z :=
  a <- get_attr ;;
  log (Call_spawnp path file_actions a argv envp) ;;
  if ret_posix_spawnp os =? 0 then
    match a with
    | Some a' =>
        if has_flag a' POSIX_SPAWN_SETEXEC then
          fun p => (Replaced {| img_path := path; img_attr := a';
                                img_argv := argv; img_envp := envp |}, p)
        else ret 0
    | None => ret 0
    end
  else ret (ret_posix_spawnp os).

(** ** <stdio.h>, <stdlib.h> *)

Definition fprintf_stderr (fmt : string) (args : list string) : M unit :=
  let text := fprintf_format fmt args in
  log (Call_fprintf_stderr text) ;;
  fun p => (Returns tt,
            {| attr := attr p; stderr := (stderr p ++ text)%string; calls := calls p |}).

Definition exit (status : Z) : M unit :=
  log (Call_exit status) ;;
  fun p => (Exited status, p).

(** ** The macro CHECK_SPAWN *)

(** [expr_text] is the stringified argument, [#expr]. *)
Definition CHECK_SPAWN (expr_text : string) (expr : M Z) : M unit :=
  err <- expr ;;
  if negb (err =? 0) then
    posix_spawnattr_destroy ;;
    fprintf_stderr "[disclaim] %s: %s" [expr_text; strerror err] ;;
    exit err
  else ret tt.

(** ** disclaim *)

Definition disclaim : M unit :=
  CHECK_SPAWN "posix_spawnattr_init(&attr)" posix_spawnattr_init ;;
  let flags := to_short POSIX_SPAWN_SETEXEC in
  let no_signals := sigemptyset in
  CHECK_SPAWN "posix_spawnattr_setsigmask(&attr, &no_signals)"
    (posix_spawnattr_setsigmask no_signals) ;;
  let flags := to_short (Z.lor flags POSIX_SPAWN_SETSIGMASK) in
  let all_signals := sigfillset in
  CHECK_SPAWN "posix_spawnattr_setsigdefault(&attr, &all_signals)"
    (posix_spawnattr_setsigdefault all_signals) ;;
  let flags := to_short (Z.lor flags POSIX_SPAWN_SETSIGDEF) in
  CHECK_SPAWN "posix_spawnattr_setflags(&attr, flags)"
    (posix_spawnattr_setflags flags) ;;
  (if builtin_available_macOS_10_14 os then
     match responsibility_spawnattrs_setdisclaim with
     | Some setdisclaim =>
         CHECK_SPAWN "responsibility_spawnattrs_setdisclaim(&attr, 1)"
           (setdisclaim 1)
     | None => ret tt
     end
   else ret tt) ;;
  let argv := NSGetArgv os in
  CHECK_SPAWN "posix_spawnp(&pid, argv[0], nullptr, &attr, argv, environ)"
    (posix_spawnp (hd_error argv) None argv (environ os)).

(** A hosting program: [disclaim()] followed by more code. *)
Definition host (after : M unit) : M unit :=
  disclaim ;; after.

End Program.

(** ** A concrete platform: Darwin *)

(** The values of the macOS headers: a signal set is a 32-bit mask,
    signal [n] being bit [n-1]. *)
Module Darwin.

Definition mask_member (set : Z) (signo : Z) : bool :=
  if signo >? 32 then false else Z.testbit set (signo - 1).

Definition error_text (errnum : Z) : string :=
  match errnum with
  | 1 => "Operation not permitted"
  | 2 => "No such file or directory"
  | 12 => "Cannot allocate memory"
  | 22 => "Invalid argument"
  | _ => "Unknown error"
  end.

#[export] Instance platform : Platform := {|
  sigset_t := Z;
  sigemptyset := 0;
  sigfillset := 4294967295;
  sigismember := mask_member;
  NSIG := 32;
  posix_spawn_file_actions_t := Z;
  POSIX_SPAWN_SETEXEC := 64;
  POSIX_SPAWN_SETSIGMASK := 8;
  POSIX_SPAWN_SETSIGDEF := 4;
  strerror := error_text
|}.

(** A run in which every call succeeds, on a system with the extension. *)
Definition os_ok : OS := {|
  ret_posix_spawnattr_init := 0;
  ret_posix_spawnattr_setsigmask := 0;
  ret_posix_spawnattr_setsigdefault := 0;
  ret_posix_spawnattr_setflags := 0;
  builtin_available_macOS_10_14 := true;
  sym_responsibility_spawnattrs_setdisclaim := Some 0;
  ret_posix_spawnp := 0;
  NSGetArgv := ["/usr/local/bin/osxphotos"; "export"; "/tmp/out"];
  environ := ["HOME=/Users/rhet"; "PATH=/usr/bin:/bin"]
|}.

(** A run on the same process with the given answers of the system. *)
Definition os_with (init setsigmask setsigdefault setflags : Z)
    (available : bool) (sym : option Z) (spawnp : Z) : OS := {|
  ret_posix_spawnattr_init := init;
  ret_posix_spawnattr_setsigmask := setsigmask;
  ret_posix_spawnattr_setsigdefault := setsigdefault;
  ret_posix_spawnattr_setflags := setflags;
  builtin_available_macOS_10_14 := available;
  sym_responsibility_spawnattrs_setdisclaim := sym;
  ret_posix_spawnp := spawnp;
  NSGetArgv := NSGetArgv os_ok;
  environ := environ os_ok
|}.

End Darwin.

(** Darwin's headers on a system that does not know the exec-in-place flag:
    the constant carries no bit. *)
Definition platform_without_setexec : Platform := {|
  sigset_t := Z;
  sigemptyset := 0;
  sigfillset := 4294967295;
  sigismember := Darwin.mask_member;
  NSIG := 32;
  posix_spawn_file_actions_t := Z;
  POSIX_SPAWN_SETEXEC := 0;
  POSIX_SPAWN_SETSIGMASK := 8;
  POSIX_SPAWN_SETSIGDEF := 4;
  strerror := Darwin.error_text
|}.

(** ** Vocabulary of the properties *)

Section Vocabulary.
Context {P : Platform}.

(** The six places where the source wraps a call in CHECK_SPAWN. *)
Inductive step :=
| Step_init
| Step_setsigmask
| Step_setsigdefault
| Step_setflags
| Step_setdisclaim
| Step_spawnp.

(** The text of the call at each of them, as the preprocessor stringifies
    it. *)
Definition step_expr (st : step) : string :=
  match st with
  | Step_init => "posix_spawnattr_init(&attr)"
  | Step_setsigmask => "posix_spawnattr_setsigmask(&attr, &no_signals)"
  | Step_setsigdefault => "posix_spawnattr_setsigdefault(&attr, &all_signals)"
  | Step_setflags => "posix_spawnattr_setflags(&attr, flags)"
  | Step_setdisclaim => "responsibility_spawnattrs_setdisclaim(&attr, 1)"
  | Step_spawnp => "posix_spawnp(&pid, argv[0], nullptr, &attr, argv, environ)"
  end.

(** The function called there. *)
Definition step_function (st : step) : string :=
  match st with
  | Step_init => "posix_spawnattr_init"
  | Step_setsigmask => "posix_spawnattr_setsigmask"
  | Step_setsigdefault => "posix_spawnattr_setsigdefault"
  | Step_setflags => "posix_spawnattr_setflags"
  | Step_setdisclaim => "responsibility_spawnattrs_setdisclaim"
  | Step_spawnp => "posix_spawnp"
  end.

(** The code the system returns to the call of a step; [None] when the
    system is such that the step makes no call (the extension is absent). *)
Definition step_code (os : OS) (st : step) : option Z :=
  match st with
  | Step_init => Some (ret_posix_spawnattr_init os)
  | Step_setsigmask => Some (ret_posix_spawnattr_setsigmask os)
  | Step_setsigdefault => Some (ret_posix_spawnattr_setsigdefault os)
  | Step_setflags => Some (ret_posix_spawnattr_setflags os)
  | Step_setdisclaim =>
      if builtin_available_macOS_10_14 os
      then sym_responsibility_spawnattrs_setdisclaim os else None
  | Step_spawnp => Some (ret_posix_spawnp os)
  end.

Definition step_passes (os : OS) (st : step) : bool :=
  match step_code os st with
  | Some code => code =? 0
  | None => true
  end.

Definition steps_before (st : step) : list step :=
  match st with
  | Step_init => []
  | Step_setsigmask => [Step_init]
  | Step_setsigdefault => [Step_init; Step_setsigmask]
  | Step_setflags => [Step_init; Step_setsigmask; Step_setsigdefault]
  | Step_setdisclaim =>
      [Step_init; Step_setsigmask; Step_setsigdefault; Step_setflags]
  | Step_spawnp =>
      [Step_init; Step_setsigmask; Step_setsigdefault; Step_setflags;
       Step_setdisclaim]
  end.

(** The system lets every earlier step pass and answers the call of step
    [st] with the non-zero code [e]. *)
Definition fails_at (os : OS) (st : step) (e : Z) : Prop :=
  forallb (step_passes os) (steps_before st) = true /\
  step_code os st = Some e /\ e <> 0.

(** The configuration steps: the four calls that build the attributes. *)
Definition configuration_step (st : step) : bool :=
  match st with
  | Step_init | Step_setsigmask | Step_setsigdefault | Step_setflags => true
  | Step_setdisclaim | Step_spawnp => false
  end.

(** Kinds of logged calls. *)
Definition is_spawnp (c : call) : bool :=
  match c with Call_spawnp _ _ _ _ _ => true | _ => false end.
Definition is_fprintf (c : call) : bool :=
  match c with Call_fprintf_stderr _ => true | _ => false end.
Definition is_exit (c : call) : bool :=
  match c with Call_exit _ => true | _ => false end.
Definition is_destroy (c : call) : bool :=
  match c with Call_attr_destroy _ => true | _ => false end.
Definition is_setflags (c : call) : bool :=
  match c with Call_setflags _ => true | _ => false end.
Definition is_setdisclaim (c : call) : bool :=
  match c with Call_setdisclaim _ => true | _ => false end.

(** How many logged calls are of a kind. *)
Definition count (kind : call -> bool) (l : list call) : nat :=
  length (filter kind l).

(** Position of a call in the text of the source: the six calls wrapped in
    CHECK_SPAWN, in the order of [disclaim], then the three calls of the
    failure branch of the macro. *)
Definition call_rank (c : call) : nat :=
  match c with
  | Call_attr_init => 1
  | Call_setsigmask _ => 2
  | Call_setsigdefault _ => 3
  | Call_setflags _ => 4
  | Call_setdisclaim _ => 5
  | Call_spawnp _ _ _ _ _ => 6
  | Call_attr_destroy _ => 7
  | Call_fprintf_stderr _ => 8
  | Call_exit _ => 9
  end%nat.

Definition step_rank (st : step) : nat :=
  match st with
  | Step_init => 1
  | Step_setsigmask => 2
  | Step_setsigdefault => 3
  | Step_setflags => 4
  | Step_setdisclaim => 5
  | Step_spawnp => 6
  end%nat.

(** All six steps. *)
Definition all_steps : list step :=
  [Step_init; Step_setsigmask; Step_setsigdefault; Step_setflags;
   Step_setdisclaim; Step_spawnp].

End Vocabulary.

Arguments fprintf_format : simpl never.
Arguments has_flag : simpl never.

(** * Properties *)

Section Properties.
Context {P : Platform}.

(** ** Formatted output *)

Lemma append_empty_r (s : string) : (s ++ "")%string = s.
Proof. induction s as [|c s IH]; cbn; [reflexivity | now rewrite IH]. Qed.

Lemma diagnostic_format (a b : string) :
  fprintf_format "[disclaim] %s: %s" [a; b]
  = ("[disclaim] " ++ a ++ ": " ++ b)%string.
Proof. unfold fprintf_format; cbn. now rewrite append_empty_r. Qed.

Lemma line_breaks_app (a b : string) :
  line_breaks (a ++ b) = (line_breaks a + line_breaks b)%nat.
Proof.
  induction a as [|c a IH]; cbn; [reflexivity|].
  rewrite IH. now rewrite Nat.add_assoc.
Qed.

(** ** The flags word *)

Lemma to_short_small (z : Z) : -32768 <= z < 32768 -> to_short z = z.
Proof. intro H. unfold to_short. rewrite Z.mod_small; lia. Qed.

Lemma lor_below_pow2 (a b n : Z) :
  0 <= n -> 0 <= a < 2 ^ n -> 0 <= b < 2 ^ n -> 0 <= Z.lor a b < 2 ^ n.
Proof.
  intros Hn Ha Hb.
  assert (H0 : 0 <= Z.lor a b) by (apply Z.lor_nonneg; lia).
  split; [exact H0|].
  destruct (Z.eq_dec (Z.lor a b) 0) as [E|E].
  - rewrite E. apply Z.pow_pos_nonneg; lia.
  - assert (Hpos : 0 < n).
    { destruct (Z.eq_dec n 0) as [->|]; [|lia].
      exfalso. apply E. change (2 ^ 0) with 1 in Ha, Hb.
      replace a with 0 by lia. replace b with 0 by lia. reflexivity. }
    apply Z.log2_lt_pow2; [lia|].
    rewrite Z.log2_lor by lia.
    apply Z.max_lub_lt.
    + destruct (Z.eq_dec a 0) as [->|Na]; [cbn; lia|].
      apply Z.log2_lt_pow2; lia.
    + destruct (Z.eq_dec b 0) as [->|Nb]; [cbn; lia|].
      apply Z.log2_lt_pow2; lia.
Qed.

Lemma land_lor_keep (a b c : Z) : Z.land (Z.lor (Z.lor a b) c) a = a.
Proof.
  apply Z.bits_inj'. intros n Hn.
  rewrite Z.land_spec, !Z.lor_spec.
  destruct (Z.testbit a n), (Z.testbit b n), (Z.testbit c n); reflexivity.
Qed.

Section Flags.
Context {L : PlatformLaws P}.

(** With the header's constants no conversion to [short] loses a bit. *)
Lemma flags_word :
  to_short (Z.lor (to_short (Z.lor (to_short POSIX_SPAWN_SETEXEC)
                                   POSIX_SPAWN_SETSIGMASK))
                  POSIX_SPAWN_SETSIGDEF)
  = Z.lor (Z.lor POSIX_SPAWN_SETEXEC POSIX_SPAWN_SETSIGMASK)
          POSIX_SPAWN_SETSIGDEF.
Proof.
  pose proof SETEXEC_range as He.
  pose proof SETSIGMASK_range as Hm.
  pose proof SETSIGDEF_range as Hd.
  change 32768 with (2 ^ 15) in He, Hm, Hd.
  assert (H1 : 0 <= Z.lor POSIX_SPAWN_SETEXEC POSIX_SPAWN_SETSIGMASK < 2 ^ 15)
    by (apply lor_below_pow2; lia).
  assert (H2 : 0 <= Z.lor (Z.lor POSIX_SPAWN_SETEXEC POSIX_SPAWN_SETSIGMASK)
                          POSIX_SPAWN_SETSIGDEF < 2 ^ 15)
    by (apply lor_below_pow2; lia).
  change (2 ^ 15) with 32768 in *.
  rewrite (to_short_small POSIX_SPAWN_SETEXEC) by lia.
  rewrite (to_short_small (Z.lor _ POSIX_SPAWN_SETSIGMASK)) by lia.
  apply to_short_small; lia.
Qed.

Lemma has_flag_setexec (m d : option sigset_t) (x : option Z) :
  has_flag
    {| psa_flags := Z.lor (Z.lor POSIX_SPAWN_SETEXEC POSIX_SPAWN_SETSIGMASK)
                          POSIX_SPAWN_SETSIGDEF;
       psa_sigmask := m; psa_sigdefault := d; psa_disclaim := x |}
    POSIX_SPAWN_SETEXEC = true.
Proof.
  unfold has_flag; cbn. rewrite land_lor_keep.
  pose proof SETEXEC_range as He.
  destruct (Z.eqb_spec POSIX_SPAWN_SETEXEC 0); [lia | reflexivity].
Qed.

End Flags.

(** ** Running the program *)

Lemma nonzero_eqb (e : Z) : e <> 0 -> (e =? 0) = false.
Proof. intro H. now apply Z.eqb_neq. Qed.

(** Turn the assumptions on the system into equations on its fields. *)
Ltac world os :=
  destruct os as [c_init c_mask c_def c_flags avail sym c_spawn argv envp];
  unfold fails_at, step_passes in *; cbn in *;
  repeat (match goal with
    | H : _ /\ _ |- _ => destruct H
    | H : (_ && _)%bool = true |- _ => apply andb_prop in H
    | H : (_ =? 0) = true |- _ => apply Z.eqb_eq in H
    | H : Some _ = Some _ |- _ => injection H as H
    | H : ?e <> 0 |- _ => apply nonzero_eqb in H
    | H : context [if ?b then _ else _] |- _ => is_var b; destruct b
    | H : context [match ?s with Some _ => _ | None => _ end] |- _ =>
        is_var s; destruct s
    end; cbn in *; try discriminate);
  subst.

(** Unfold the program down to its primitive steps and evaluate. *)
Ltac run :=
  unfold host, disclaim, CHECK_SPAWN, responsibility_spawnattrs_setdisclaim,
    posix_spawnattr_init, posix_spawnattr_setsigmask,
    posix_spawnattr_setsigdefault, posix_spawnattr_setflags,
    posix_spawnattr_destroy, posix_spawnp, fprintf_stderr, exit,
    attr_setter, get_attr, set_attr, log, bind, ret;
  cbn;
  repeat match goal with
    | H : (?e =? 0) = false |- _ => rewrite !H; cbn
    end;
  rewrite ?diagnostic_format.

(** Follow every way the system can answer. *)
Ltac every_run_from :=
  unfold host, disclaim, CHECK_SPAWN, responsibility_spawnattrs_setdisclaim,
    posix_spawnattr_init, posix_spawnattr_setsigmask,
    posix_spawnattr_setsigdefault, posix_spawnattr_setflags,
    posix_spawnattr_destroy, posix_spawnp, fprintf_stderr, exit,
    attr_setter, get_attr, set_attr, log, bind, ret;
  cbn;
  repeat (match goal with
    | H : (?c =? 0) = false |- context [?c =? 0] => rewrite !H
    | |- context [?c =? 0] =>
        is_var c; let E := fresh "E" in
        destruct (c =? 0) eqn:E; [apply Z.eqb_eq in E; subst c|]
    | |- context [if ?b then _ else _] => is_var b; destruct b
    | |- context [match ?s with Some _ => _ | None => _ end] =>
        is_var s; destruct s
    | |- context [has_flag ?a ?f] => destruct (has_flag a f)
    end; cbn);
  rewrite ?diagnostic_format.

Ltac every_run os :=
  destruct os as [c_init c_mask c_def c_flags avail sym c_spawn argv envp];
  every_run_from.

(** A process that exits does so because one step failed. *)
Lemma exit_has_failing_step (os : OS) (e : Z) :
  fst (disclaim os process_start) = Exited e ->
  exists st, fails_at os st e.
Proof.
  every_run os; intro H; try discriminate H; injection H as <-;
    unfold fails_at, step_passes; cbn;
    repeat match goal with
      | E : (_ =? 0) = false |- _ => apply Z.eqb_neq in E
      end.
  all: first
    [ exists Step_init; cbn; now repeat split
    | exists Step_setsigmask; cbn; now repeat split
    | exists Step_setsigdefault; cbn; now repeat split
    | exists Step_setflags; cbn; now repeat split
    | exists Step_setdisclaim; cbn; now repeat split
    | exists Step_spawnp; cbn; now repeat split ].
Qed.

(** ** Failure of a configuration step *)

(** C1: when the call of one of the configuration steps (attribute init, set
    signal mask, set signal defaults, set flags) is answered with a non-zero
    code [e], [disclaim] ends the process by [exit(e)], has written exactly
    one diagnostic to standard error (one [fprintf], whose text is
    "[disclaim] ", the source text of the failing call, ": " and the
    system's description of [e], and standard error holds that text and
    nothing else), and [posix_spawnp] has not been called. *)
Theorem configuration_failure_is_fatal (os : OS) (st : step) (e : Z) :
  configuration_step st = true ->
  fails_at os st e ->
  let text := ("[disclaim] " ++ step_expr st ++ ": " ++ strerror e)%string in
  fst (disclaim os process_start) = Exited e /\
  count is_exit (calls (snd (disclaim os process_start))) = 1%nat /\
  last (calls (snd (disclaim os process_start))) Call_attr_init = Call_exit e /\
  count is_fprintf (calls (snd (disclaim os process_start))) = 1%nat /\
  filter is_fprintf (calls (snd (disclaim os process_start)))
  = [Call_fprintf_stderr text] /\
  stderr (snd (disclaim os process_start)) = text /\
  text <> "" /\
  count is_spawnp (calls (snd (disclaim os process_start))) = 0%nat.
Proof.
  intros Hc Hf text; subst text.
  destruct st; try discriminate Hc; world os; run; cbn; repeat split;
    discriminate.
Qed.

(** ** The successful path *)

(** C2: when every call up to the spawn passes and the spawn succeeds,
    [disclaim] does not return: the process image is replaced, and a hosting
    program ends in the very state in which [disclaim] ended, whatever code
    it has after the call. *)
Theorem success_never_returns {L : PlatformLaws P} (os : OS) (after : M unit) :
  forallb (step_passes os) (steps_before Step_spawnp) = true ->
  step_code os Step_spawnp = Some 0 ->
  (exists img, fst (disclaim os process_start) = Replaced img) /\
  (forall u, fst (disclaim os process_start) <> Returns u) /\
  host os after process_start = disclaim os process_start.
Proof.
  intros Hp Hs.
  world os; run; rewrite ?flags_word, ?has_flag_setexec;
    (split; [eexists; reflexivity | split; [discriminate | reflexivity]]).
Qed.

(** ** The responsibility-disclaim extension *)

(** C3: after the configuration steps have passed, the extension is called,
    with the value 1, when the availability check holds and the symbol is
    bound; when either fails no such call is made, nothing is written,
    destroyed or exited, and the next call is the spawn. *)
Theorem extension_is_optional {L : PlatformLaws P} (os : OS) :
  forallb (step_passes os) (steps_before Step_setdisclaim) = true ->
  let flags := Z.lor (Z.lor POSIX_SPAWN_SETEXEC POSIX_SPAWN_SETSIGMASK)
                     POSIX_SPAWN_SETSIGDEF in
  let configured :=
    [Call_attr_init; Call_setsigmask sigemptyset;
     Call_setsigdefault sigfillset; Call_setflags flags] in
  let p := snd (disclaim os process_start) in
  (builtin_available_macOS_10_14 os = true ->
   forall code, sym_responsibility_spawnattrs_setdisclaim os = Some code ->
     (exists rest, calls p = (configured ++ Call_setdisclaim 1 :: rest)%list) /\
     count is_setdisclaim (calls p) = 1%nat /\
     (code = 0 ->
      exists a path fa argv envp,
        In (Call_spawnp path fa (Some a) argv envp) (calls p) /\
        psa_disclaim a = Some 1)) /\
  (builtin_available_macOS_10_14 os = false \/
   sym_responsibility_spawnattrs_setdisclaim os = None ->
     count is_setdisclaim (calls p) = 0%nat /\
     (exists a rest,
        calls p = (configured ++
                   Call_spawnp (hd_error (NSGetArgv os)) None (Some a)
                     (NSGetArgv os) (environ os) :: rest)%list /\
        psa_disclaim a = None) /\
     (ret_posix_spawnp os = 0 ->
      (exists img, fst (disclaim os process_start) = Replaced img) /\
      stderr p = "" /\
      count is_fprintf (calls p) = 0%nat /\
      count is_destroy (calls p) = 0%nat /\
      count is_exit (calls p) = 0%nat)).
Proof.
  intros Hp flags configured p. subst flags configured p.
  world os. split.
  - intros -> code ->.
    destruct (Z.eqb_spec code 0) as [->|Hc];
      destruct (Z.eqb_spec c_spawn 0) as [->|Hs];
      try apply nonzero_eqb in Hc; try apply nonzero_eqb in Hs;
      run; rewrite ?flags_word, ?has_flag_setexec; cbn;
      (split; [eexists; reflexivity | split; [reflexivity|]]);
      intro E; try (subst code; cbn in Hc; discriminate Hc);
      do 5 eexists;
      (split; [cbn; do 5 right; left; reflexivity | reflexivity]).
  - intros Habs.
    destruct avail, sym as [code|];
      try (destruct Habs; discriminate);
      (destruct (Z.eqb_spec c_spawn 0) as [->|Hs];
       [|pose proof (nonzero_eqb _ Hs)]);
      run; rewrite ?flags_word, ?has_flag_setexec; cbn;
      (split; [reflexivity|]);
      (split; [do 2 eexists; split; reflexivity|]);
      intro E; try contradiction;
      repeat split; eexists; reflexivity.
Qed.
(** ** The spawn call *)

(** C4: once the steps before it have passed, [posix_spawnp] is called
    once, with [argv[0]] as the file, no file actions, the populated
    attributes, the argument vector and the environment of the process as
    they are; when it succeeds the new image has that argument vector and
    that environment. *)
Theorem spawn_arguments {L : PlatformLaws P} (os : OS) :
  forallb (step_passes os) (steps_before Step_spawnp) = true ->
  let p := snd (disclaim os process_start) in
  exists a,
    filter is_spawnp (calls p)
    = [Call_spawnp (hd_error (NSGetArgv os)) None (Some a)
         (NSGetArgv os) (environ os)] /\
    psa_flags a = Z.lor (Z.lor POSIX_SPAWN_SETEXEC POSIX_SPAWN_SETSIGMASK)
                        POSIX_SPAWN_SETSIGDEF /\
    psa_sigmask a = Some sigemptyset /\
    psa_sigdefault a = Some sigfillset /\
    psa_disclaim a = option_map (fun _ => 1) (step_code os Step_setdisclaim) /\
    (ret_posix_spawnp os = 0 ->
     fst (disclaim os process_start)
     = Replaced {| img_path := hd_error (NSGetArgv os); img_attr := a;
                   img_argv := NSGetArgv os; img_envp := environ os |}).
Proof.
  intros Hp p; subst p.
  world os;
    (destruct (Z.eqb_spec c_spawn 0) as [->|Hs];
     [|pose proof (nonzero_eqb _ Hs)]);
    run; rewrite ?flags_word, ?has_flag_setexec; cbn;
    eexists; (split; [reflexivity|]); cbn;
    repeat (split; [reflexivity|]);
    intro E; try contradiction; reflexivity.
Qed.

(** ** The signal sets *)

(** Case analysis on membership in a log that has been computed. *)
Ltac in_log H :=
  cbn in H;
  repeat match type of H with
    | _ \/ _ => destruct H as [H|H]; [try discriminate H|]
    | False => contradiction
    end.

Lemma setsigmask_argument (os : OS) (set : sigset_t) :
  In (Call_setsigmask set) (calls (snd (disclaim os process_start))) ->
  set = sigemptyset.
Proof. every_run os; intro H; in_log H; now injection H as <-. Qed.

Lemma setsigdefault_argument (os : OS) (set : sigset_t) :
  In (Call_setsigdefault set) (calls (snd (disclaim os process_start))) ->
  set = sigfillset.
Proof. every_run os; intro H; in_log H; now injection H as <-. Qed.

Lemma spawnp_attr_sets (os : OS) path fa a args env :
  In (Call_spawnp path fa a args env)
     (calls (snd (disclaim os process_start))) ->
  exists a', a = Some a' /\
    psa_sigmask a' = Some sigemptyset /\ psa_sigdefault a' = Some sigfillset.
Proof.
  every_run os; intro H; in_log H; injection H as <- <- <- <- <-;
    eexists; repeat split.
Qed.

(** C5: in every run, the set handed to [posix_spawnattr_setsigmask] is the
    empty set, of which no signal is a member, and the set handed to
    [posix_spawnattr_setsigdefault] is the full set, of which every signal
    is a member; the attributes handed to the spawn carry these two sets.
    The first call is made as soon as the object is initialised, the second
    as soon as the first has passed. *)
Theorem signal_sets_installed {L : PlatformLaws P} (os : OS) :
  let p := snd (disclaim os process_start) in
  (forall set, In (Call_setsigmask set) (calls p) ->
     set = sigemptyset /\ forall signo, sigismember set signo = false) /\
  (forall set, In (Call_setsigdefault set) (calls p) ->
     set = sigfillset /\
     forall signo, 0 < signo < NSIG -> sigismember set signo = true) /\
  (forall path fa a argv envp,
     In (Call_spawnp path fa a argv envp) (calls p) ->
     exists a', a = Some a' /\
       psa_sigmask a' = Some sigemptyset /\
       psa_sigdefault a' = Some sigfillset) /\
  (ret_posix_spawnattr_init os = 0 ->
   In (Call_setsigmask sigemptyset) (calls p)) /\
  (ret_posix_spawnattr_init os = 0 ->
   ret_posix_spawnattr_setsigmask os = 0 ->
   In (Call_setsigdefault sigfillset) (calls p)).
Proof.
  intro p; subst p. split; [|split; [|split; [|split]]].
  - intros set H. apply setsigmask_argument in H. subst set.
    split; [reflexivity | apply sigemptyset_spec].
  - intros set H. apply setsigdefault_argument in H. subst set.
    split; [reflexivity | apply sigfillset_spec].
  - apply spawnp_attr_sets.
  - destruct os as [c_init c_mask c_def c_flags avail sym c_spawn argv envp].
    cbn [ret_posix_spawnattr_init]. intros ->.
    every_run_from; cbn; tauto.
  - destruct os as [c_init c_mask c_def c_flags avail sym c_spawn argv envp].
    cbn [ret_posix_spawnattr_init ret_posix_spawnattr_setsigmask].
    intros -> ->.
    every_run_from; cbn; tauto.
Qed.

(** ** The flags *)

Lemma setflags_at_most_once (os : OS) :
  (count is_setflags (calls (snd (disclaim os process_start))) <= 1)%nat.
Proof. every_run os; cbn; lia. Qed.

Lemma setflags_argument {L : PlatformLaws P} (os : OS) (flags : Z) :
  In (Call_setflags flags) (calls (snd (disclaim os process_start))) ->
  flags = Z.lor (Z.lor POSIX_SPAWN_SETEXEC POSIX_SPAWN_SETSIGMASK)
                POSIX_SPAWN_SETSIGDEF.
Proof.
  every_run os; intro H; in_log H; injection H as <-; apply flags_word.
Qed.

Lemma spawnp_attr_flags {L : PlatformLaws P} (os : OS) path fa a args env :
  In (Call_spawnp path fa a args env)
     (calls (snd (disclaim os process_start))) ->
  exists a', a = Some a' /\
    psa_flags a' = Z.lor (Z.lor POSIX_SPAWN_SETEXEC POSIX_SPAWN_SETSIGMASK)
                         POSIX_SPAWN_SETSIGDEF.
Proof.
  every_run os; intro H; in_log H; injection H as <- <- <- <- <-;
    eexists; (split; [reflexivity | apply flags_word]).
Qed.

Lemma no_flags_before_setflags (os : OS) (st : step) (e : Z) (a : spawnattr) :
  configuration_step st = true ->
  fails_at os st e ->
  In (Call_attr_destroy (Some a)) (calls (snd (disclaim os process_start))) ->
  psa_flags a = 0.
Proof.
  intros Hc Hf.
  destruct st; try discriminate Hc; world os; run; intro Hin; in_log Hin;
    now injection Hin as <-.
Qed.

(** C6: the three flags reach the object by one call of
    [posix_spawnattr_setflags]: no run has a second such call, its argument
    is the three flags or-ed together, it comes after the calls that install
    the signal mask and the default set, and an object that is given up at
    or before that call (a configuration step having failed) still has no
    flag; the object handed to the spawn has the three. *)
Theorem flags_applied_once {L : PlatformLaws P} (os : OS) :
  let p := snd (disclaim os process_start) in
  let flags := Z.lor (Z.lor POSIX_SPAWN_SETEXEC POSIX_SPAWN_SETSIGMASK)
                     POSIX_SPAWN_SETSIGDEF in
  (count is_setflags (calls p) <= 1)%nat /\
  (forall f, In (Call_setflags f) (calls p) -> f = flags) /\
  (forallb (step_passes os) (steps_before Step_setflags) = true ->
   exists rest,
     calls p = ([Call_attr_init; Call_setsigmask sigemptyset;
                 Call_setsigdefault sigfillset; Call_setflags flags]
                ++ rest)%list /\
     count is_setflags rest = 0%nat) /\
  (forall st e a,
     configuration_step st = true -> fails_at os st e ->
     In (Call_attr_destroy (Some a)) (calls p) -> psa_flags a = 0) /\
  (forall path fa a args env,
     In (Call_spawnp path fa a args env) (calls p) ->
     exists a', a = Some a' /\ psa_flags a' = flags).
Proof.
  intros p flags; subst p flags.
  split; [apply setflags_at_most_once|].
  split; [apply setflags_argument|].
  split; [|split; [intros st e a; apply no_flags_before_setflags
                  |apply spawnp_attr_flags]].
  intro Hp. world os. every_run_from; rewrite ?flags_word;
    (eexists; split; [reflexivity | reflexivity]).
Qed.

(** ** The diagnostic *)

(** C7: when a step fails with code [e], what the run has written to
    standard error is the text "[disclaim] ", the source text of the failing
    call, ": " and the system's description of [e], by one [fprintf]; that
    source text starts with the name of the function called, and the text
    has no line break other than those of the description. *)
Theorem diagnostic_text (os : OS) (st : step) (e : Z) :
  fails_at os st e ->
  let p := snd (disclaim os process_start) in
  let text := ("[disclaim] " ++ step_expr st ++ ": " ++ strerror e)%string in
  stderr p = text /\
  filter is_fprintf (calls p) = [Call_fprintf_stderr text] /\
  prefix (step_function st ++ "(") (step_expr st) = true /\
  line_breaks text = line_breaks (strerror e).
Proof.
  intros Hf p text; subst p text.
  split; [|split; [|split]].
  - destruct st; world os; run; reflexivity.
  - destruct st; world os; run; reflexivity.
  - destruct st; reflexivity.
  - rewrite !line_breaks_app. destruct st; reflexivity.
Qed.

(** ** Order of the failure path *)


(** ** Failure of the extension *)

(** C9: when the extension is present and its call returns a non-zero code
    [e], the run is that of a failed configuration step: the object is
    destroyed, one diagnostic is written, the process exits with [e], and
    [posix_spawnp] is not called. *)
Theorem extension_failure_is_fatal {L : PlatformLaws P} (os : OS) (e : Z) :
  forallb (step_passes os) (steps_before Step_setdisclaim) = true ->
  builtin_available_macOS_10_14 os = true ->
  sym_responsibility_spawnattrs_setdisclaim os = Some e ->
  e <> 0 ->
  let flags := Z.lor (Z.lor POSIX_SPAWN_SETEXEC POSIX_SPAWN_SETSIGMASK)
                     POSIX_SPAWN_SETSIGDEF in
  let text :=
    ("[disclaim] responsibility_spawnattrs_setdisclaim(&attr, 1): "
     ++ strerror e)%string in
  disclaim os process_start
  = (Exited e,
     {| attr := None;
        stderr := text;
        calls :=
          [Call_attr_init; Call_setsigmask sigemptyset;
           Call_setsigdefault sigfillset; Call_setflags flags;
           Call_setdisclaim 1;
           Call_attr_destroy
             (Some {| psa_flags := flags;
                      psa_sigmask := Some sigemptyset;
                      psa_sigdefault := Some sigfillset;
                      psa_disclaim := None |});
           Call_fprintf_stderr text;
           Call_exit e] |}).
Proof.
  intros Hp Ha Hs He flags text; subst flags text.
  world os. run. rewrite flags_word. reflexivity.
Qed.

(** ** Failure of the initialisation *)

(** C10: when [posix_spawnattr_init] itself returns a non-zero code [e], the
    failure path is the common one: [posix_spawnattr_destroy] is called on
    the object, which holds nothing initialised, then the diagnostic is
    written and the process exits with [e]. *)
Theorem init_failure_destroys_uninitialised (os : OS) (e : Z) :
  ret_posix_spawnattr_init os = e ->
  e <> 0 ->
  let text :=
    ("[disclaim] posix_spawnattr_init(&attr): " ++ strerror e)%string in
  disclaim os process_start
  = (Exited e,
     {| attr := None;
        stderr := text;
        calls := [Call_attr_init; Call_attr_destroy None;
                  Call_fprintf_stderr text; Call_exit e] |}).
Proof.
  intros Hi He text; subst text.
  world os. run. reflexivity.
Qed.

(** * Further properties of the run *)

(** Follow every way the system can answer, on a platform that keeps the
    laws: the flags word is known to carry the exec-in-place flag. *)
Ltac every_run_laws os :=
  destruct os as [c_init c_mask c_def c_flags avail sym c_spawn argv envp];
  unfold host, disclaim, CHECK_SPAWN, responsibility_spawnattrs_setdisclaim,
    posix_spawnattr_init, posix_spawnattr_setsigmask,
    posix_spawnattr_setsigdefault, posix_spawnattr_setflags,
    posix_spawnattr_destroy, posix_spawnp, fprintf_stderr, exit,
    attr_setter, get_attr, set_attr, log, bind, ret;
  cbn;
  repeat (match goal with
    | H : (?c =? 0) = false |- context [?c =? 0] => rewrite !H
    | |- context [?c =? 0] =>
        is_var c; let E := fresh "E" in
        destruct (c =? 0) eqn:E; [apply Z.eqb_eq in E; subst c|]
    | |- context [if ?b then _ else _] => is_var b; destruct b
    | |- context [match ?s with Some _ => _ | None => _ end] =>
        is_var s; destruct s
    end; cbn; rewrite ?flags_word, ?has_flag_setexec; cbn);
  rewrite ?diagnostic_format.

(** ** The macro on any expression *)

(** X1: CHECK_SPAWN lets control through only for the code 0, and then
    leaves the process exactly as the checked expression left it. *)
Theorem CHECK_SPAWN_returns_only_on_zero
    (text : string) (expr : M Z) (p p' : process) (u : unit) :
  CHECK_SPAWN text expr p = (Returns u, p') ->
  expr p = (Returns 0, p').
Proof.
  unfold CHECK_SPAWN, bind.
  destruct (expr p) as [[err | status | img] q]; try discriminate.
  destruct (Z.eqb_spec err 0) as [->|Hne]; cbn.
  - unfold ret. intro H. inversion H. reflexivity.
  - unfold posix_spawnattr_destroy, fprintf_stderr, exit, bind, get_attr,
      set_attr, log. cbn. discriminate.
Qed.

(** X2: when the checked expression returns a non-zero code [e], whatever
    it is and whatever the state, CHECK_SPAWN destroys the object, appends
    the diagnostic for [text] and [e] to standard error, and exits with
    [e]; the three calls are appended to the log in that order. *)
Theorem CHECK_SPAWN_aborts_on_nonzero
    (text : string) (expr : M Z) (p q : process) (e : Z) :
  expr p = (Returns e, q) ->
  e <> 0 ->
  let diagnostic := ("[disclaim] " ++ text ++ ": " ++ strerror e)%string in
  CHECK_SPAWN text expr p
  = (Exited e,
     {| attr := None;
        stderr := (stderr q ++ diagnostic)%string;
        calls := (calls q ++ [Call_attr_destroy (attr q);
                              Call_fprintf_stderr diagnostic;
                              Call_exit e])%list |}).
Proof.
  intros He Hne diagnostic; subst diagnostic.
  unfold CHECK_SPAWN, bind. rewrite He.
  rewrite (nonzero_eqb _ Hne). cbn.
  unfold posix_spawnattr_destroy, fprintf_stderr, exit, bind, get_attr,
    set_attr, log. cbn.
  rewrite diagnostic_format, <- !app_assoc. reflexivity.
Qed.

(** ** How a run can end *)

(** X3: [disclaim] never returns to its caller: every run ends in an exit
    or in the replacement of the image, so no code placed after the call is
    ever run, whatever the system answers. *)
Theorem disclaim_never_returns {L : PlatformLaws P}
    (os : OS) (after : M unit) :
  (forall u, fst (disclaim os process_start) <> Returns u) /\
  host os after process_start = disclaim os process_start.
Proof.
  every_run_laws os; (split; [discriminate | reflexivity]).
Qed.

(** X4: the process exits with status [e] exactly when some step fails
    with code [e]; an exit status is never 0. *)
Theorem exit_iff_step_fails (os : OS) (e : Z) :
  (fst (disclaim os process_start) = Exited e <->
   exists st, fails_at os st e) /\
  (fst (disclaim os process_start) = Exited e -> e <> 0).
Proof.
  split; [split|].
  - apply exit_has_failing_step.
  - intros [st Hf]. destruct st; world os; run; reflexivity.
  - intro H. apply exit_has_failing_step in H. destruct H as [st Hf].
    apply Hf.
Qed.

(** X5: the image is replaced exactly when every step passes: the
    configuration calls, the extension where it is called, and the spawn. *)
Theorem replaced_iff_all_pass {L : PlatformLaws P} (os : OS) :
  (exists img, fst (disclaim os process_start) = Replaced img) <->
  forallb (step_passes os) all_steps = true.
Proof.
  split.
  - unfold step_passes.
    every_run_laws os; intros [img H]; try discriminate H;
      cbn; rewrite ?Z.eqb_refl; reflexivity.
  - intro Hp. world os; run; rewrite ?flags_word, ?has_flag_setexec;
      eexists; reflexivity.
Qed.

(** X6: when the image is replaced, the new image is the file [argv[0]]
    with the argument vector and the environment of the process and the
    attributes the object holds; the spawn is the last call, nothing has
    been written to standard error, and the object has not been
    destroyed. *)
Theorem replaced_image (os : OS) (img : image) :
  fst (disclaim os process_start) = Replaced img ->
  let p := snd (disclaim os process_start) in
  img_path img = hd_error (NSGetArgv os) /\
  img_argv img = NSGetArgv os /\
  img_envp img = environ os /\
  attr p = Some (img_attr img) /\
  last (calls p) Call_attr_init
  = Call_spawnp (hd_error (NSGetArgv os)) None (Some (img_attr img))
      (NSGetArgv os) (environ os) /\
  stderr p = "" /\
  count is_destroy (calls p) = 0%nat.
Proof.
  intros H p; subst p. revert H.
  every_run os; intro H; try discriminate H; injection H as <-;
    cbn; repeat split.
Qed.

(** X7: the object is destroyed, and a diagnostic written, exactly in the
    runs that exit: then once each, and the local [attr] is left without
    an object; in every other run neither happens and standard error stays
    empty. *)
Theorem destroy_and_diagnostic_iff_exit (os : OS) :
  let r := disclaim os process_start in
  ((exists e, fst r = Exited e) ->
   count is_destroy (calls (snd r)) = 1%nat /\
   count is_fprintf (calls (snd r)) = 1%nat /\
   count is_exit (calls (snd r)) = 1%nat /\
   stderr (snd r) <> "" /\
   attr (snd r) = None) /\
  ((forall e, fst r <> Exited e) ->
   count is_destroy (calls (snd r)) = 0%nat /\
   count is_fprintf (calls (snd r)) = 0%nat /\
   count is_exit (calls (snd r)) = 0%nat /\
   stderr (snd r) = "" /\
   attr (snd r) <> None).
Proof.
  intro r; subst r.
  every_run os; split.
  all: try (intros [e H]; discriminate H).
  all: try (intros _; cbn; repeat split; discriminate).
  all: try (intro H; exfalso; eapply H; reflexivity).
Qed.

(** ** What is called, and in which order *)

(** X8: in every run the library calls are made in the order of the source
    text and none is made twice; the first is always
    [posix_spawnattr_init]. *)
Theorem calls_in_source_order (os : OS) :
  StronglySorted lt (map call_rank (calls (snd (disclaim os process_start))))
  /\ hd_error (calls (snd (disclaim os process_start))) = Some Call_attr_init.
Proof.
  every_run os; (split; [|reflexivity]); cbn;
    repeat (constructor; try lia).
Qed.

(** X9: after a step has failed nothing of the later steps is called: the
    log holds only calls of the steps up to the failing one, that of the
    failing step among them, and the three calls of the failure branch. *)
Theorem nothing_after_failure (os : OS) (st : step) (e : Z) :
  fails_at os st e ->
  Forall (fun c => (call_rank c <= step_rank st)%nat \/
                   (7 <= call_rank c)%nat)
         (calls (snd (disclaim os process_start))) /\
  exists c, In c (calls (snd (disclaim os process_start))) /\
            call_rank c = step_rank st.
Proof.
  intro Hf.
  destruct st; world os; run; cbn;
    (split; [repeat (apply Forall_cons; [cbn; lia|]); apply Forall_nil|]).
  - exists Call_attr_init. cbn. tauto.
  - exists (Call_setsigmask sigemptyset). cbn. tauto.
  - exists (Call_setsigdefault sigfillset). cbn. tauto.
  - eexists (Call_setflags _). cbn. split; [do 3 right; left|]; reflexivity.
  - exists (Call_setdisclaim 1). cbn. tauto.
  - eexists (Call_spawnp _ _ _ _ _). cbn.
    split; [do 5 right; left|]; reflexivity.
  - eexists (Call_spawnp _ _ _ _ _). cbn.
    split; [do 4 right; left|]; reflexivity.
  - eexists (Call_spawnp _ _ _ _ _). cbn.
    split; [do 4 right; left|]; reflexivity.
Qed.

(** X10: the extension is only ever called through a bound symbol, on a
    system that passes the availability check, after the four
    configuration calls have passed, and with the value 1. *)
Theorem setdisclaim_only_when_present (os : OS) (d : Z) :
  In (Call_setdisclaim d) (calls (snd (disclaim os process_start))) ->
  d = 1 /\
  builtin_available_macOS_10_14 os = true /\
  sym_responsibility_spawnattrs_setdisclaim os <> None /\
  forallb (step_passes os) (steps_before Step_setdisclaim) = true.
Proof.
  unfold step_passes.
  every_run os; intro Hin; in_log Hin; injection Hin as <-;
    cbn; repeat split; discriminate.
Qed.

(** ** The flags the spawn sees *)

Lemma land_lor_keep_mid (a b c : Z) : Z.land (Z.lor (Z.lor a b) c) b = b.
Proof.
  apply Z.bits_inj'. intros n Hn.
  rewrite Z.land_spec, !Z.lor_spec.
  destruct (Z.testbit a n), (Z.testbit b n), (Z.testbit c n); reflexivity.
Qed.

Lemma land_lor_keep_last (a b c : Z) : Z.land (Z.lor (Z.lor a b) c) c = c.
Proof.
  apply Z.bits_inj'. intros n Hn.
  rewrite Z.land_spec, !Z.lor_spec.
  destruct (Z.testbit a n), (Z.testbit b n), (Z.testbit c n); reflexivity.
Qed.

(** X11: the attributes that reach the spawn have each of the three flags
    set, as the kernel tests them, so the installed signal mask and default
    set take effect and the spawn replaces the image. *)
Theorem spawn_sees_every_flag {L : PlatformLaws P} (os : OS)
    path fa a args env :
  POSIX_SPAWN_SETSIGMASK <> 0 ->
  POSIX_SPAWN_SETSIGDEF <> 0 ->
  In (Call_spawnp path fa (Some a) args env)
     (calls (snd (disclaim os process_start))) ->
  has_flag a POSIX_SPAWN_SETEXEC = true /\
  has_flag a POSIX_SPAWN_SETSIGMASK = true /\
  has_flag a POSIX_SPAWN_SETSIGDEF = true.
Proof.
  intros Hm Hd Hin.
  apply spawnp_attr_flags in Hin. destruct Hin as [a' [Ea Hf]].
  injection Ea as <-.
  pose proof SETEXEC_range as He.
  unfold has_flag. rewrite Hf.
  rewrite land_lor_keep, land_lor_keep_mid, land_lor_keep_last.
  repeat split; apply negb_true_iff; apply Z.eqb_neq; lia.
Qed.

(** X12: the function has no guard of its own after the spawn.  Where the
    flags word carries no exec-in-place bit, a successful spawn returns 0
    and [disclaim] returns to its caller, the code after the call runs, and
    the attributes object has been neither destroyed nor reported. *)
Theorem returns_when_spawn_returns (os : OS) (after : M unit) :
  POSIX_SPAWN_SETEXEC = 0 ->
  forallb (step_passes os) all_steps = true ->
  let r := disclaim os process_start in
  fst r = Returns tt /\
  attr (snd r) <> None /\
  count is_destroy (calls (snd r)) = 0%nat /\
  stderr (snd r) = "" /\
  host os after process_start = after (snd r).
Proof.
  intros H0 Hp r; subst r.
  assert (Hflag : forall a, has_flag a POSIX_SPAWN_SETEXEC = false).
  { intro a. unfold has_flag. rewrite H0, Z.land_0_r. reflexivity. }
  world os; run; rewrite !Hflag; cbn; repeat split; discriminate.
Qed.

End Properties.

(** * The properties on Darwin *)

Section OnDarwin.
#[local] Existing Instance Darwin.platform.

(** The macOS headers satisfy the platform laws. *)
Lemma Darwin_laws : PlatformLaws Darwin.platform.
Proof.
  split; cbn; try lia.
  - intro signo. unfold Darwin.mask_member.
    destruct (signo >? 32); [reflexivity | apply Z.testbit_0_l].
  - intros signo H. unfold Darwin.mask_member.
    destruct (Z.gtb_spec signo 32); [lia|].
    change 4294967295 with (Z.ones 32).
    apply Z.ones_spec_low. lia.
Qed.

#[local] Existing Instance Darwin_laws.

(** Two runs, evaluated. *)
Example run_all_pass :
  disclaim Darwin.os_ok process_start
  = (let a := {| psa_flags := 76; psa_sigmask := Some 0;
                 psa_sigdefault := Some 4294967295;
                 psa_disclaim := Some 1 |} in
     let argv := ["/usr/local/bin/osxphotos"; "export"; "/tmp/out"] in
     let envp := ["HOME=/Users/rhet"; "PATH=/usr/bin:/bin"] in
     (Replaced {| img_path := Some "/usr/local/bin/osxphotos";
                  img_attr := a; img_argv := argv; img_envp := envp |},
      {| attr := Some a; stderr := "";
         calls := [Call_attr_init; Call_setsigmask 0;
                   Call_setsigdefault 4294967295; Call_setflags 76;
                   Call_setdisclaim 1;
                   Call_spawnp (Some "/usr/local/bin/osxphotos") None
                     (Some a) argv envp] |})).
Proof. reflexivity. Qed.

Example run_setsigdefault_fails :
  disclaim (Darwin.os_with 0 0 22 0 true (Some 0) 0) process_start
  = (let text :=
       "[disclaim] posix_spawnattr_setsigdefault(&attr, &all_signals): Invalid argument"
     in
     (Exited 22,
      {| attr := None; stderr := text;
         calls := [Call_attr_init; Call_setsigmask 0;
                   Call_setsigdefault 4294967295;
                   Call_attr_destroy
                     (Some {| psa_flags := 0; psa_sigmask := Some 0;
                              psa_sigdefault := None;
                              psa_disclaim := None |});
                   Call_fprintf_stderr text; Call_exit 22] |})).
Proof. reflexivity. Qed.

(** [posix_spawnattr_setflags] answers EINVAL. *)
Lemma configuration_failure_is_fatal_witness :
  fails_at (Darwin.os_with 0 0 0 22 true (Some 0) 0) Step_setflags 22 /\
  fst (disclaim (Darwin.os_with 0 0 0 22 true (Some 0) 0) process_start)
  = Exited 22 /\
  stderr (snd (disclaim (Darwin.os_with 0 0 0 22 true (Some 0) 0)
                 process_start))
  = "[disclaim] posix_spawnattr_setflags(&attr, flags): Invalid argument".
Proof.
  assert (H : fails_at (Darwin.os_with 0 0 0 22 true (Some 0) 0)
                Step_setflags 22)
    by (repeat split; discriminate).
  split; [exact H|].
  pose proof (configuration_failure_is_fatal _ Step_setflags 22 eq_refl H)
    as T.
  split; [exact (proj1 T)|].
  exact (proj1 (proj2 (proj2 (proj2 (proj2 (proj2 T)))))).
Defined.

(** Every call succeeds: the hosting program never reaches its next
    statement. *)
Lemma success_never_returns_witness :
  host Darwin.os_ok (log (Call_fprintf_stderr "sentinel")) process_start
  = disclaim Darwin.os_ok process_start.
Proof.
  exact (proj2 (proj2 (success_never_returns Darwin.os_ok
                         (log (Call_fprintf_stderr "sentinel"))
                         eq_refl eq_refl))).
Defined.

(** A system older than macOS 10.14: no call of the extension. *)
Lemma extension_is_optional_witness :
  count is_setdisclaim
    (calls (snd (disclaim (Darwin.os_with 0 0 0 0 false None 0)
                   process_start))) = 0%nat.
Proof.
  exact (proj1 (proj2 (extension_is_optional
                         (Darwin.os_with 0 0 0 0 false None 0) eq_refl)
                  (or_introl eq_refl))).
Defined.

Lemma spawn_arguments_witness :
  exists a,
    filter is_spawnp (calls (snd (disclaim Darwin.os_ok process_start)))
    = [Call_spawnp (Some "/usr/local/bin/osxphotos") None (Some a)
         ["/usr/local/bin/osxphotos"; "export"; "/tmp/out"]
         ["HOME=/Users/rhet"; "PATH=/usr/bin:/bin"]].
Proof.
  destruct (spawn_arguments Darwin.os_ok eq_refl) as [a [H _]].
  exists a. exact H.
Defined.

Lemma signal_sets_installed_witness :
  In (Call_setsigmask 0)
     (calls (snd (disclaim Darwin.os_ok process_start))) /\
  forall signo, Darwin.mask_member 0 signo = false.
Proof.
  pose proof (signal_sets_installed Darwin.os_ok) as [H1 [_ [_ [H4 _]]]].
  split; [exact (H4 eq_refl)|].
  exact (proj2 (H1 0 (H4 eq_refl))).
Defined.

Lemma flags_applied_once_witness :
  exists rest,
    calls (snd (disclaim Darwin.os_ok process_start))
    = ([Call_attr_init; Call_setsigmask 0; Call_setsigdefault 4294967295;
        Call_setflags 76] ++ rest)%list /\
    count is_setflags rest = 0%nat.
Proof.
  exact (proj1 (proj2 (proj2 (flags_applied_once Darwin.os_ok))) eq_refl).
Defined.

(** The spawn itself answers ENOENT. *)
Lemma diagnostic_text_witness :
  fails_at (Darwin.os_with 0 0 0 0 true (Some 0) 2) Step_spawnp 2 /\
  stderr (snd (disclaim (Darwin.os_with 0 0 0 0 true (Some 0) 2)
                 process_start))
  = "[disclaim] posix_spawnp(&pid, argv[0], nullptr, &attr, argv, environ): No such file or directory".
Proof.
  assert (H : fails_at (Darwin.os_with 0 0 0 0 true (Some 0) 2)
                Step_spawnp 2)
    by (repeat split; discriminate).
  split; [exact H|].
  exact (proj1 (diagnostic_text _ Step_spawnp 2 H)).
Defined.


(** The extension answers EPERM. *)
Lemma extension_failure_is_fatal_witness :
  fst (disclaim (Darwin.os_with 0 0 0 0 true (Some 1) 0) process_start)
  = Exited 1.
Proof.
  assert (N : 1 <> 0) by discriminate.
  exact (f_equal fst
           (extension_failure_is_fatal
              (Darwin.os_with 0 0 0 0 true (Some 1) 0) 1
              eq_refl eq_refl eq_refl N)).
Defined.

(** [posix_spawnattr_init] answers ENOMEM. *)
Lemma init_failure_destroys_uninitialised_witness :
  calls (snd (disclaim (Darwin.os_with 12 0 0 0 true (Some 0) 0)
                process_start))
  = [Call_attr_init; Call_attr_destroy None;
     Call_fprintf_stderr
       "[disclaim] posix_spawnattr_init(&attr): Cannot allocate memory";
     Call_exit 12].
Proof.
  assert (N : 12 <> 0) by discriminate.
  exact (f_equal (fun r => calls (snd r))
           (init_failure_destroys_uninitialised
              (Darwin.os_with 12 0 0 0 true (Some 0) 0) 12 eq_refl N)).
Defined.

(** ** Further properties, on Darwin *)

Lemma CHECK_SPAWN_returns_only_on_zero_witness :
  CHECK_SPAWN "posix_spawnattr_init(&attr)"
    (posix_spawnattr_init Darwin.os_ok) process_start
  = (Returns tt,
     {| attr := Some spawnattr_default; stderr := "";
        calls := [Call_attr_init] |}) /\
  posix_spawnattr_init Darwin.os_ok process_start
  = (Returns 0,
     {| attr := Some spawnattr_default; stderr := "";
        calls := [Call_attr_init] |}).
Proof.
  split; [reflexivity|].
  exact (CHECK_SPAWN_returns_only_on_zero "posix_spawnattr_init(&attr)"
           (posix_spawnattr_init Darwin.os_ok) process_start _ tt eq_refl).
Defined.

Lemma CHECK_SPAWN_aborts_on_nonzero_witness :
  fst (CHECK_SPAWN "f()" (ret 22) process_start) = Exited 22.
Proof.
  assert (N : 22 <> 0) by discriminate.
  exact (f_equal fst
           (CHECK_SPAWN_aborts_on_nonzero "f()" (ret 22) process_start
              process_start 22 eq_refl N)).
Defined.

Lemma disclaim_never_returns_witness :
  host (Darwin.os_with 0 0 0 0 true None 2)
    (log (Call_fprintf_stderr "sentinel")) process_start
  = disclaim (Darwin.os_with 0 0 0 0 true None 2) process_start.
Proof.
  exact (proj2 (disclaim_never_returns
                  (Darwin.os_with 0 0 0 0 true None 2)
                  (log (Call_fprintf_stderr "sentinel")))).
Defined.

Lemma replaced_iff_all_pass_witness :
  exists img, fst (disclaim Darwin.os_ok process_start) = Replaced img.
Proof.
  exact (proj2 (replaced_iff_all_pass Darwin.os_ok) eq_refl).
Defined.

Lemma replaced_image_witness :
  img_argv
    {| img_path := Some "/usr/local/bin/osxphotos";
       img_attr := {| psa_flags := 76; psa_sigmask := Some 0;
                      psa_sigdefault := Some 4294967295;
                      psa_disclaim := Some 1 |};
       img_argv := ["/usr/local/bin/osxphotos"; "export"; "/tmp/out"];
       img_envp := ["HOME=/Users/rhet"; "PATH=/usr/bin:/bin"] |}
  = NSGetArgv Darwin.os_ok.
Proof.
  exact (proj1 (proj2 (replaced_image Darwin.os_ok _ eq_refl))).
Defined.

Lemma nothing_after_failure_witness :
  fails_at (Darwin.os_with 0 22 0 0 true (Some 0) 0) Step_setsigmask 22 /\
  Forall (fun c => (call_rank c <= 2)%nat \/ (7 <= call_rank c)%nat)
    (calls (snd (disclaim (Darwin.os_with 0 22 0 0 true (Some 0) 0)
                   process_start))).
Proof.
  assert (H : fails_at (Darwin.os_with 0 22 0 0 true (Some 0) 0)
                Step_setsigmask 22)
    by (repeat split; discriminate).
  split; [exact H|].
  exact (proj1 (nothing_after_failure _ Step_setsigmask 22 H)).
Defined.

Lemma setdisclaim_only_when_present_witness :
  In (Call_setdisclaim 1)
     (calls (snd (disclaim Darwin.os_ok process_start))) /\
  builtin_available_macOS_10_14 Darwin.os_ok = true.
Proof.
  assert (H : In (Call_setdisclaim 1)
                (calls (snd (disclaim Darwin.os_ok process_start))))
    by (cbn; do 4 right; left; reflexivity).
  split; [exact H|].
  exact (proj1 (proj2 (setdisclaim_only_when_present Darwin.os_ok 1 H))).
Defined.

Lemma spawn_sees_every_flag_witness :
  has_flag {| psa_flags := 76; psa_sigmask := Some 0;
              psa_sigdefault := Some 4294967295;
              psa_disclaim := Some 1 |} 8 = true.
Proof.
  assert (Hm : 8 <> 0) by discriminate.
  assert (Hd : 4 <> 0) by discriminate.
  assert (H : In (Call_spawnp (Some "/usr/local/bin/osxphotos") None
                    (Some {| psa_flags := 76; psa_sigmask := Some 0;
                             psa_sigdefault := Some 4294967295;
                             psa_disclaim := Some 1 |})
                    (NSGetArgv Darwin.os_ok) (environ Darwin.os_ok))
                (calls (snd (disclaim Darwin.os_ok process_start))))
    by (cbn; do 5 right; left; reflexivity).
  exact (proj1 (proj2 (spawn_sees_every_flag Darwin.os_ok _ _ _ _ _
                         Hm Hd H))).
Defined.


End OnDarwin.

(** * On a system without the exec-in-place flag *)

Lemma returns_when_spawn_returns_witness :
  fst (disclaim (P := platform_without_setexec) Darwin.os_ok process_start)
  = Returns tt.
Proof.
  exact (proj1 (returns_when_spawn_returns (P := platform_without_setexec)
                  Darwin.os_ok (ret tt) eq_refl eq_refl)).
Defined.
